(** * Propellers: static-thrust model of an array of propellers

    Shallow embedding of [src/propellers.py] (class [Propellers]) and the
    properties of its constructor and of [set_speed].

    Modelling choices.
    - A one-dimensional [torch.tensor] is a [list] of scalars.  The scalar
      type and its arithmetic are an interface ([Scalar]): everything that
      concerns lengths, errors, mutation order and the shape of the thrust
      formula is proved for every implementation of that interface, hence
      independently of rounding.  Facts about the formula in exact
      arithmetic (the closed form, monotonicity) are stated in the
      instance over the real numbers; what rounding does to them is shown
      in the instance over IEEE binary32, the arithmetic of a default
      torch tensor.
    - A Python [int] is a [Z]; [len] and [size(dim=0)] are [Z.of_nat] of a
      list length.
    - [raise] is a value of type [exn] in the [Err] branch of [result].
    - [set_speed] mutates [self]; it is a computation in a state-and-error
      monad over the record [Propellers], so that the state left behind by
      a raised exception is part of the model. *)

From Stdlib Require Import ZArith String List Bool Lia.
From Stdlib Require Import DecimalString.
From Stdlib Require Import Reals Lra.
From Stdlib Require Import SpecFloat.
Import ListNotations.

Local Open Scope Z_scope.

(** ** Exceptions and results *)

(** [ValueError] carries the formatted message of the source; the
    [RuntimeError] raised inside torch (shape mismatch, negative size)
    carries none in the model. *)
Inductive exn : Type :=
| ValueError (msg : string)
| RuntimeError.

Inductive result (A : Type) : Type :=
| Ok (a : A)
| Err (e : exn).

Arguments Ok {A} a.
Arguments Err {A} e.

Definition is_ok {A} (r : result A) : bool :=
  match r with Ok _ => true | Err _ => false end.

(** ** Python float literals and the scalar interface *)

(** The literal [mant * 10^exp10] as it is written in the source. *)
Record pyfloat : Type := PyFloat { mant : Z; exp10 : Z }.

Definition lit_39_37    : pyfloat := PyFloat 3937 (-2).   (* 39.37    *)
Definition lit_4_392e_8 : pyfloat := PyFloat 4392 (-11).  (* 4.392e-8 *)
Definition lit_4_23e_4  : pyfloat := PyFloat 423 (-6).    (* 4.23e-4  *)
Definition lit_3_5      : pyfloat := PyFloat 35 (-1).     (* 3.5      *)

Class Scalar (F : Type) : Type := {
  fzero : F;
  of_literal : pyfloat -> F;
  fmul : F -> F -> F;
  fdiv : F -> F -> F;
  fpow : F -> F -> F;
  fsqrt : F -> F
}.

(** ** String formatting used by the error messages *)

(** [str(z)] for a Python int. *)
Definition str_int (z : Z) : string := NilZero.string_of_int (Z.to_int z).

(** [str(t.shape)] for a one-dimensional tensor of the given length. *)
Definition str_shape (len : Z) : string :=
  ("torch.Size([" ++ str_int len ++ "])")%string.

Definition msg_diameters (len n : Z) : string :=
  ("Shape of propeller_diameters (" ++ str_int len
     ++ ") not equal to n_propellers (" ++ str_int n ++ ").")%string.

Definition msg_pitchs (len n : Z) : string :=
  ("Shape of propeller_pitchs (" ++ str_int len
     ++ ") not equal to n_propellers (" ++ str_int n ++ ").")%string.

Definition msg_speed (len n : Z) : string :=
  ("Shape of speed (" ++ str_shape len
     ++ ") not equal to n_propellers (" ++ str_int n ++ ").")%string.

(** ** Tensors *)

Fixpoint zip_with {A B C} (f : A -> B -> C) (a : list A) (b : list B) : list C :=
  match a, b with
  | x :: a', y :: b' => f x y :: zip_with f a' b'
  | _, _ => []
  end.

Section Model.

Context {F : Type} {SF : Scalar F}.

Definition tensor : Type := list F.

(** [len(l)], [t.size(dim=0)] *)
Definition len (l : tensor) : Z := Z.of_nat (length l).

(** [torch.tensor(l)]: a fresh tensor holding the elements of the list. *)
Definition torch_tensor (l : list F) : tensor := l.

(** [torch.zeros((n))]; torch refuses a negative size. *)
Definition torch_zeros (n : Z) : result tensor :=
  if n <? 0 then Err RuntimeError
  else Ok (repeat fzero (Z.to_nat n)).

(** [t * c] and [c * t] for a Python float [c]. *)
Definition mul_scalar (t : tensor) (c : F) : tensor :=
  map (fun x => fmul x c) t.
Definition scalar_mul (c : F) (t : tensor) : tensor :=
  map (fun x => fmul c x) t.

(** [torch.pow(t, e)] and [torch.sqrt(t)], elementwise. *)
Definition torch_pow (t : tensor) (e : F) : tensor :=
  map (fun x => fpow x e) t.
Definition torch_sqrt (t : tensor) : tensor := map fsqrt t.

(** A binary elementwise operator on one-dimensional tensors, with
    torch's broadcasting: equal sizes pair up, a size-1 operand is
    stretched, anything else is a [RuntimeError]. *)
Definition elementwise (op : F -> F -> F) (a b : tensor) : result tensor :=
  if (length a =? length b)%nat then Ok (zip_with op a b)
  else match a, b with
       | [x], _ => Ok (map (fun y => op x y) b)
       | _, [y] => Ok (map (fun x => op x y) a)
       | _, _ => Err RuntimeError
       end.

Definition tensor_mul : tensor -> tensor -> result tensor := elementwise fmul.
Definition tensor_div : tensor -> tensor -> result tensor := elementwise fdiv.

(** ** The object *)

Record Propellers : Type := mkPropellers {
  n : Z;
  dia : tensor;
  pitch : tensor;
  speed : tensor;
  thrust : tensor
}.

(** ** [Propellers.__init__]

    The object under construction is not observable when [__init__]
    raises, so the constructor is a function to [result Propellers];
    the checks and the tensor constructions keep the order of the
    source. *)
Definition __init__ (n_propellers : Z)
           (propeller_diameters propeller_pitchs : list F)
  : result Propellers :=
  let self_n := n_propellers in
  if negb (len propeller_diameters =? n_propellers) then
    Err (ValueError (msg_diameters (len propeller_diameters) n_propellers))
  else
    let self_dia :=
      mul_scalar (torch_tensor propeller_diameters) (of_literal lit_39_37) in
    if negb (len propeller_pitchs =? n_propellers) then
      Err (ValueError (msg_pitchs (len propeller_pitchs) n_propellers))
    else
      let self_pitch :=
        mul_scalar (torch_tensor propeller_pitchs) (of_literal lit_39_37) in
      match torch_zeros self_n with
      | Err e => Err e
      | Ok self_speed =>
          match torch_zeros self_n with
          | Err e => Err e
          | Ok self_thrust =>
              Ok (mkPropellers self_n self_dia self_pitch
                               self_speed self_thrust)
          end
      end.

(** ** Mutation of [self]: a state-and-error monad *)

Definition M (A : Type) : Type := Propellers -> result A * Propellers.

Definition ret {A} (a : A) : M A := fun self => (Ok a, self).

Definition bind {A B} (m : M A) (k : A -> M B) : M B :=
  fun self =>
    match m self with
    | (Ok a, self') => k a self'
    | (Err e, self') => (Err e, self')
    end.

Definition raise {A} (e : exn) : M A := fun self => (Err e, self).

(** A torch call that may raise. *)
Definition call {A} (r : result A) : M A := fun self => (r, self).

(** [self.x] *)
Definition attr {A} (proj : Propellers -> A) : M A :=
  fun self => (Ok (proj self), self).

(** [self.speed = t], [self.thrust = t] *)
Definition assign_speed (t : tensor) : M unit :=
  fun self =>
    (Ok tt, mkPropellers (n self) (dia self) (pitch self) t (thrust self)).
Definition assign_thrust (t : tensor) : M unit :=
  fun self =>
    (Ok tt, mkPropellers (n self) (dia self) (pitch self) (speed self) t).

Notation "x <- c1 ;; c2" := (bind c1 (fun x => c2))
  (at level 61, c1 at next level, right associativity).
Notation "c1 ;;; c2" := (bind c1 (fun _ => c2))
  (at level 61, right associativity).

(** ** [Propellers.set_speed] *)
Definition set_speed (propeller_speeds : tensor) : M unit :=
  self_n <- attr n ;;
  if negb (len propeller_speeds =? self_n) then
    raise (ValueError (msg_speed (len propeller_speeds) self_n))
  else
    assign_speed propeller_speeds ;;;
    (* self.thrust = 4.392e-8 * self.speed * torch.pow(self.dia, 3.5)
                     / (torch.sqrt(self.pitch)) *)
    s <- attr speed ;;
    d <- attr dia ;;
    num <- call (tensor_mul (scalar_mul (of_literal lit_4_392e_8) s)
                            (torch_pow d (of_literal lit_3_5))) ;;
    p <- attr pitch ;;
    t1 <- call (tensor_div num (torch_sqrt p)) ;;
    assign_thrust t1 ;;;
    (* self.thrust = self.thrust * (4.23e-4 * self.speed * self.pitch) *)
    t <- attr thrust ;;
    s <- attr speed ;;
    p <- attr pitch ;;
    fac <- call (tensor_mul (scalar_mul (of_literal lit_4_23e_4) s) p) ;;
    t2 <- call (tensor_mul t fac) ;;
    assign_thrust t2.

(** State and outcome of one call. *)
Definition outcome (speeds : tensor) (self : Propellers) : result unit :=
  fst (set_speed speeds self).
Definition after (speeds : tensor) (self : Propellers) : Propellers :=
  snd (set_speed speeds self).

(** The value the source computes for one propeller, with the
    association of the Python expression. *)
Definition thrust_two_step (s d p : F) : F :=
  fmul (fdiv (fmul (fmul (of_literal lit_4_392e_8) s)
                   (fpow d (of_literal lit_3_5)))
             (fsqrt p))
       (fmul (fmul (of_literal lit_4_23e_4) s) p).

(** Meters to inches, as [__init__] stores geometry. *)
Definition to_inches (x : F) : F := fmul x (of_literal lit_39_37).

(** States an object can be in: built by a successful [__init__] from
    the given arguments, then any number of [set_speed] calls, whatever
    their outcome. *)
Inductive reachable (count : Z) (diameters pitches : list F)
  : Propellers -> Prop :=
| reach_init self :
    __init__ count diameters pitches = Ok self ->
    reachable count diameters pitches self
| reach_set_speed self speeds :
    reachable count diameters pitches self ->
    reachable count diameters pitches (after speeds self).

End Model.

(** ** The vector [set_speed] stores, and the invariant of an object *)

Section Derived.

Context {F : Type} {SF : Scalar F}.

(** The two assignments to [self.thrust] composed, when no operand is
    broadcast. *)
Definition thrust_vec (s d p : tensor) : tensor :=
  zip_with fmul
    (zip_with fdiv
       (zip_with fmul (scalar_mul (of_literal lit_4_392e_8) s)
                      (torch_pow d (of_literal lit_3_5)))
       (torch_sqrt p))
    (zip_with fmul (scalar_mul (of_literal lit_4_23e_4) s) p).

(** What every state of an object built from [count], [diameters],
    [pitches] satisfies. *)
Record consistent (count : Z) (diameters pitches : list F)
       (self : Propellers) : Prop := {
  cons_n : n self = count;
  cons_diameters : len diameters = count;
  cons_pitches : len pitches = count;
  cons_dia : dia self = map to_inches diameters;
  cons_pitch : pitch self = map to_inches pitches;
  cons_speed : len (speed self) = count;
  cons_thrust : len (thrust self) = count
}.

(** An error message that shows two integers, in this order. *)
Definition mentions (msg : string) (a b : Z) : Prop :=
  exists pre mid post : string,
    msg = (pre ++ str_int a ++ mid ++ str_int b ++ post)%string.

End Derived.

(** ** The instance over the real numbers *)

Definition R_of_literal (l : pyfloat) : R :=
  if 0 <=? exp10 l
  then (IZR (mant l) * IZR (10 ^ exp10 l))%R
  else (IZR (mant l) / IZR (10 ^ (- exp10 l)))%R.

#[global] Instance Scalar_R : Scalar R := {|
  fzero := 0%R;
  of_literal := R_of_literal;
  fmul := Rmult;
  fdiv := Rdiv;
  fpow := Rpower;
  fsqrt := sqrt
|}.

(** The closed form of the thrust of one propeller, as the specification
    writes it: [4.392e-8 * 4.23e-4 * speed^2 * diameter^3.5 * pitch^0.5]. *)
Definition thrust_closed_form (s d p : R) : R :=
  (4.392e-8 * 4.23e-4 * s ^ 2 * Rpower d 3.5 * Rpower p 0.5)%R.

(** The factor of [speed^2] in the thrust of a propeller of stored
    diameter [d] and pitch [p]. *)
Definition thrust_coefficient (d p : R) : R :=
  (4.392e-8 * 4.23e-4 * Rpower d 3.5 * sqrt p)%R.

(** ** A concrete object

    The example of the source: four propellers of diameter 3 and pitch 2,
    here driven at 3000 rotations per minute. *)
Definition quad_diameters : list R := [3; 3; 3; 3]%R.
Definition quad_pitches : list R := [2; 2; 2; 2]%R.
Definition quad_speeds : tensor := [3000; 3000; 3000; 3000]%R.
Definition quad_slow : tensor := [1000; -1000; 0; 2999]%R.

Definition quad : Propellers :=
  mkPropellers 4 (map to_inches quad_diameters) (map to_inches quad_pitches)
               [0; 0; 0; 0]%R [0; 0; 0; 0]%R.

(** ** The instance over IEEE binary32

    A tensor built by [torch.tensor] or [torch.zeros] from Python numbers
    holds binary32 values; [*], [/] and [torch.sqrt] on it are the IEEE
    operations, rounded to nearest even ([SpecFloat] at precision 24,
    [emax] 128).  A Python float literal is the binary64 nearest to its
    decimal text, and is cast to binary32 when it meets a binary32
    tensor.  What [torch.pow] returns is not fixed bit for bit by IEEE,
    so the instance takes it as a parameter [powf]. *)

(** An integer as binary64 and as binary32, rounded to nearest even. *)
Definition binary64_of_Z (z : Z) : spec_float :=
  binary_normalize 53 1024 z 0 false.

(** The binary64 value of a literal [mant * 10^exp10]: one correctly
    rounded operation on two exactly represented integers (the mantissas
    and the powers of ten of the source are far below [2^53]). *)
Definition binary64_of_literal (l : pyfloat) : spec_float :=
  if 0 <=? exp10 l
  then SFmul 53 1024 (binary64_of_Z (mant l)) (binary64_of_Z (10 ^ exp10 l))
  else SFdiv 53 1024 (binary64_of_Z (mant l))
                     (binary64_of_Z (10 ^ (- exp10 l))).

(** The cast of a binary64 scalar to binary32. *)
Definition binary32_of_binary64 (x : spec_float) : spec_float :=
  match x with
  | S754_finite s m e => binary_round 24 128 s m e
  | _ => x
  end.

Definition Scalar_binary32 (powf : spec_float -> spec_float -> spec_float)
  : Scalar spec_float := {|
  fzero := S754_zero false;
  of_literal := fun l => binary32_of_binary64 (binary64_of_literal l);
  fmul := SFmul 24 128;
  fdiv := SFdiv 24 128;
  fpow := powf;
  fsqrt := SFsqrt 24 128
|}.



(** * Properties that hold for every scalar arithmetic *)

Lemma length_zip_with {A B C} (f : A -> B -> C) (a : list A) (b : list B) :
  length a = length b -> length (zip_with f a b) = length a.
Proof.
  revert b; induction a as [|x a IH]; intros [|y b] E; simpl in *;
    try discriminate; auto.
Qed.

Lemma nth_error_zip_with {A B C} (f : A -> B -> C) (a : list A) (b : list B)
      (i : nat) (x : A) (y : B) :
  nth_error a i = Some x -> nth_error b i = Some y ->
  nth_error (zip_with f a b) i = Some (f x y).
Proof.
  revert b i; induction a as [|x' a IH]; intros [|y' b] [|i] Ha Hb;
    simpl in *; try discriminate.
  - congruence.
  - eauto.
Qed.

Section Properties.

Context {F : Type} {SF : Scalar F}.

Implicit Types (self : @Propellers F) (speeds s d p : @tensor F).

Lemma len_eq_length (a b : @tensor F) : len a = len b -> length a = length b.
Proof. unfold len; lia. Qed.

Lemma len_repeat (x : F) (k : Z) : 0 <= k -> len (repeat x (Z.to_nat k)) = k.
Proof. intros Hk; unfold len; rewrite repeat_length; lia. Qed.

Lemma len_map (f : F -> F) (a : @tensor F) : len (map f a) = len a.
Proof. unfold len; now rewrite length_map. Qed.

Lemma elementwise_same_length (op : F -> F -> F) (a b : @tensor F) :
  length a = length b -> elementwise op a b = Ok (zip_with op a b).
Proof.
  intros E; unfold elementwise.
  now rewrite (proj2 (Nat.eqb_eq _ _) E).
Qed.

Lemma length_thrust_vec s d p :
  length d = length s -> length p = length s ->
  length (thrust_vec s d p) = length s.
Proof.
  intros Hd Hp; unfold thrust_vec, scalar_mul, torch_pow, torch_sqrt.
  repeat (rewrite length_zip_with; rewrite ?length_map;
          try rewrite length_zip_with; rewrite ?length_map); congruence.
Qed.

Lemma nth_error_thrust_vec s d p (i : nat) (si di pi : F) :
  nth_error s i = Some si -> nth_error d i = Some di ->
  nth_error p i = Some pi ->
  nth_error (thrust_vec s d p) i = Some (thrust_two_step si di pi).
Proof.
  intros Hs Hd Hp; unfold thrust_vec, thrust_two_step.
  repeat apply nth_error_zip_with;
    unfold scalar_mul, torch_pow, torch_sqrt;
    try (rewrite nth_error_map, ?Hs, ?Hd, ?Hp; reflexivity);
    assumption.
Qed.

(** [torch.zeros] of a size that is a length. *)
Lemma torch_zeros_nonneg (k : Z) :
  0 <= k -> torch_zeros k = Ok (repeat (@fzero F SF) (Z.to_nat k)).
Proof.
  intros Hk; unfold torch_zeros.
  destruct (Z.ltb_spec k 0); [lia | reflexivity].
Qed.

(** The constructor on arguments of the right lengths. *)
Lemma init_ok (count : Z) (diameters pitches : list F) :
  len diameters = count -> len pitches = count ->
  __init__ count diameters pitches =
    Ok (mkPropellers count (map to_inches diameters) (map to_inches pitches)
          (repeat fzero (Z.to_nat count)) (repeat fzero (Z.to_nat count))).
Proof.
  intros Hd Hp; unfold __init__.
  rewrite Hd, Hp, Z.eqb_refl; simpl.
  rewrite torch_zeros_nonneg by (unfold len in Hd; lia).
  reflexivity.
Qed.

(** The constructor on a wrong number of diameters, whatever the pitches. *)
Lemma init_bad_diameters (count : Z) (diameters pitches : list F) :
  len diameters <> count ->
  __init__ count diameters pitches =
    Err (ValueError (msg_diameters (len diameters) count)).
Proof.
  intros Hd; unfold __init__.
  now rewrite (proj2 (Z.eqb_neq _ _) Hd).
Qed.

Lemma init_bad_pitches (count : Z) (diameters pitches : list F) :
  len diameters = count -> len pitches <> count ->
  __init__ count diameters pitches =
    Err (ValueError (msg_pitchs (len pitches) count)).
Proof.
  intros Hd Hp; unfold __init__.
  now rewrite Hd, Z.eqb_refl, (proj2 (Z.eqb_neq _ _) Hp).
Qed.

(** [set_speed] rejects a vector of the wrong length before it touches
    [self]. *)
Lemma set_speed_rejects self speeds :
  len speeds <> n self ->
  set_speed speeds self =
    (Err (ValueError (msg_speed (len speeds) (n self))), self).
Proof.
  intros Hl; unfold set_speed, bind, attr.
  now rewrite (proj2 (Z.eqb_neq _ _) Hl).
Qed.

(** [set_speed] on an object whose geometry has the length of [speeds]. *)
Lemma set_speed_accepts self speeds :
  len speeds = n self ->
  length (dia self) = length speeds ->
  length (pitch self) = length speeds ->
  set_speed speeds self =
    (Ok tt, mkPropellers (n self) (dia self) (pitch self) speeds
                         (thrust_vec speeds (dia self) (pitch self))).
Proof.
  intros Hl Hd Hp; unfold set_speed, bind, attr.
  rewrite Hl, Z.eqb_refl; simpl.
  unfold call, tensor_mul, tensor_div.
  rewrite elementwise_same_length
    by (unfold scalar_mul, torch_pow; rewrite !length_map; congruence).
  rewrite elementwise_same_length
    by (unfold scalar_mul, torch_pow, torch_sqrt;
        rewrite length_zip_with; rewrite !length_map; congruence).
  simpl.
  rewrite elementwise_same_length
    by (unfold scalar_mul; rewrite !length_map; congruence).
  rewrite elementwise_same_length
    by (unfold scalar_mul, torch_pow, torch_sqrt;
        repeat (rewrite length_zip_with; rewrite ?length_map);
        congruence).
  reflexivity.
Qed.

Lemma init_consistent (count : Z) (diameters pitches : list F) self :
  __init__ count diameters pitches = Ok self ->
  consistent count diameters pitches self.
Proof.
  intros H.
  destruct (Z.eq_dec (len diameters) count) as [Hd|Hd];
    [| rewrite init_bad_diameters in H by assumption; discriminate].
  destruct (Z.eq_dec (len pitches) count) as [Hp|Hp];
    [| rewrite init_bad_pitches in H by assumption; discriminate].
  rewrite init_ok in H by assumption.
  injection H as <-.
  assert (0 <= count) by (unfold len in Hd; lia).
  constructor; simpl; auto using len_repeat.
Qed.

Lemma consistent_lengths (count : Z) (diameters pitches : list F) self :
  consistent count diameters pitches self ->
  len (dia self) = count /\ len (pitch self) = count.
Proof.
  intros [Hn Hd Hp Hdia Hpitch _ _].
  rewrite Hdia, Hpitch, !len_map; auto.
Qed.

Lemma set_speed_consistent (count : Z) (diameters pitches : list F)
      self speeds :
  consistent count diameters pitches self ->
  consistent count diameters pitches (after speeds self).
Proof.
  intros C.
  destruct (consistent_lengths _ _ _ _ C) as [Ld Lp].
  pose proof C as [Hn Hd Hp Hdia Hpitch Hs Ht].
  unfold after.
  destruct (Z.eq_dec (len speeds) (n self)) as [E|E].
  - assert (length (dia self) = length speeds)
      by (apply len_eq_length; congruence).
    assert (length (pitch self) = length speeds)
      by (apply len_eq_length; congruence).
    rewrite set_speed_accepts by assumption; simpl.
    constructor; simpl; auto; try congruence.
    unfold len; rewrite length_thrust_vec by assumption.
    fold (len speeds); congruence.
  - rewrite set_speed_rejects by assumption; assumption.
Qed.

Lemma reachable_consistent (count : Z) (diameters pitches : list F) self :
  reachable count diameters pitches self ->
  consistent count diameters pitches self.
Proof.
  induction 1 as [self H | self speeds _ IH].
  - now apply init_consistent.
  - now apply set_speed_consistent.
Qed.

(** One accepted call, from any state of an object. *)
Lemma set_speed_reachable (count : Z) (diameters pitches : list F)
      self speeds :
  reachable count diameters pitches self ->
  len speeds = count ->
  set_speed speeds self =
    (Ok tt, mkPropellers count (map to_inches diameters)
              (map to_inches pitches) speeds
              (thrust_vec speeds (map to_inches diameters)
                          (map to_inches pitches))).
Proof.
  intros R Hl.
  pose proof (reachable_consistent _ _ _ _ R) as C.
  destruct (consistent_lengths _ _ _ _ C) as [Ld Lp].
  destruct C as [Hn Hd Hp Hdia Hpitch Hs Ht].
  rewrite set_speed_accepts.
  - now rewrite Hn, Hdia, Hpitch.
  - congruence.
  - apply len_eq_length; congruence.
  - apply len_eq_length; congruence.
Qed.

(** The thrust an accepted call leaves, in terms of the stored
    geometry. *)
Lemma thrust_after (count : Z) (diameters pitches : list F) self speeds :
  reachable count diameters pitches self ->
  len speeds = count ->
  thrust (after speeds self) = thrust_vec speeds (dia self) (pitch self).
Proof.
  intros R Hl.
  pose proof (reachable_consistent _ _ _ _ R) as C.
  destruct (consistent_lengths _ _ _ _ C) as [Ld Lp].
  destruct C as [Hn _ _ _ _ _ _].
  unfold after; rewrite set_speed_accepts; try reflexivity;
    try apply len_eq_length; congruence.
Qed.

End Properties.

(** * The constructor *)

Section Constructor.

Context {F : Type} {SF : Scalar F}.

(** C3.  For a positive [count] and [diameters], [pitches] of length
    [count], [__init__] returns an object: its [dia] and [pitch] are the
    arguments multiplied elementwise by 39.37, its [speed] and [thrust]
    are vectors of [count] zeros. *)
Theorem init_succeeds (count : Z) (diameters pitches : list F) :
  0 < count ->
  len diameters = count ->
  len pitches = count ->
  exists self,
    __init__ count diameters pitches = Ok self /\
    n self = count /\
    dia self = map (fun x => fmul x (of_literal lit_39_37)) diameters /\
    pitch self = map (fun x => fmul x (of_literal lit_39_37)) pitches /\
    speed self = repeat fzero (Z.to_nat count) /\
    thrust self = repeat fzero (Z.to_nat count) /\
    len (speed self) = count /\
    len (thrust self) = count.
Proof.
  intros Hpos Hd Hp.
  eexists; split; [apply init_ok; assumption |].
  simpl; repeat split; apply len_repeat; lia.
Qed.

(** C4.  [__init__] raises [ValueError] when the number of diameters is
    not [count], with a message that shows both numbers, and it does so
    whatever the pitches are: the diameters are checked first and the
    pitches are not looked at.  When the diameters pass and the number of
    pitches is not [count], it raises [ValueError] with a message that
    shows both of those numbers. *)
Theorem init_length_errors (count : Z) (diameters pitches : list F) :
  (len diameters <> count ->
     forall any_pitches : list F,
       __init__ count diameters any_pitches =
         Err (ValueError (msg_diameters (len diameters) count)) /\
       mentions (msg_diameters (len diameters) count)
                (len diameters) count) /\
  (len diameters = count -> len pitches <> count ->
     __init__ count diameters pitches =
       Err (ValueError (msg_pitchs (len pitches) count)) /\
     mentions (msg_pitchs (len pitches) count) (len pitches) count).
Proof.
  split.
  - intros Hd any_pitches; split.
    + now apply init_bad_diameters.
    + unfold mentions, msg_diameters; do 3 eexists; reflexivity.
  - intros Hd Hp; split.
    + now apply init_bad_pitches.
    + unfold mentions, msg_pitchs; do 3 eexists; reflexivity.
Qed.

End Constructor.

(** * [set_speed] *)

Section SetSpeed.

Context {F : Type} {SF : Scalar F}.

Implicit Types (self : @Propellers F) (speeds : @tensor F).

(** C1.  On an object built from [count], [diameters], [pitches] and a
    vector of [count] speeds, [set_speed] returns normally, [speed]
    becomes the given vector and, at every index, [thrust] is
    [(4.392e-8 * s * d^3.5 / sqrt p) * (4.23e-4 * s * p)] for the speed
    [s] and the stored geometry [d], [p], which is the constructor's
    argument times 39.37. *)
Theorem set_speed_sets_thrust (count : Z) (diameters pitches : list F)
        self speeds :
  reachable count diameters pitches self ->
  len speeds = count ->
  outcome speeds self = Ok tt /\
  speed (after speeds self) = speeds /\
  len (thrust (after speeds self)) = count /\
  forall (i : nat) (s d p : F),
    nth_error speeds i = Some s ->
    nth_error diameters i = Some d ->
    nth_error pitches i = Some p ->
    nth_error (dia (after speeds self)) i = Some (to_inches d) /\
    nth_error (pitch (after speeds self)) i = Some (to_inches p) /\
    nth_error (thrust (after speeds self)) i =
      Some (thrust_two_step s (to_inches d) (to_inches p)).
Proof.
  intros R Hl.
  pose proof (reachable_consistent _ _ _ _ R) as [_ Hd Hp _ _ _ _].
  unfold outcome, after.
  rewrite (set_speed_reachable _ _ _ _ _ R Hl); simpl.
  repeat split.
  - unfold len; rewrite length_thrust_vec;
      rewrite ?length_map; try (apply len_eq_length; congruence).
    exact Hl.
  - now apply map_nth_error.
  - now apply map_nth_error.
  - apply nth_error_thrust_vec; auto using map_nth_error.
Qed.

(** C5.  A vector whose length is not [count] makes [set_speed] raise
    [ValueError], and the object is exactly as it was before the call. *)
Theorem set_speed_wrong_length (count : Z) (diameters pitches : list F)
        self speeds :
  reachable count diameters pitches self ->
  len speeds <> count ->
  outcome speeds self = Err (ValueError (msg_speed (len speeds) count)) /\
  after speeds self = self.
Proof.
  intros R Hl.
  pose proof (reachable_consistent _ _ _ _ R) as [Hn _ _ _ _ _ _].
  unfold outcome, after.
  rewrite set_speed_rejects by congruence.
  simpl; rewrite Hn; auto.
Qed.

(** C6.  In every state of an object (after a successful [__init__] and
    any calls of [set_speed], accepted or rejected) the four vectors
    have length [count]. *)
Theorem lengths_invariant (count : Z) (diameters pitches : list F) self :
  reachable count diameters pitches self ->
  n self = count /\
  len (dia self) = n self /\
  len (pitch self) = n self /\
  len (speed self) = n self /\
  len (thrust self) = n self.
Proof.
  intros R.
  pose proof (reachable_consistent _ _ _ _ R) as C.
  destruct (consistent_lengths _ _ _ _ C) as [Ld Lp].
  destruct C as [Hn _ _ _ _ Hs Ht].
  repeat split; congruence.
Qed.

(** C7.  A call of [set_speed], whether it returns or raises, and in
    whatever state the object is, leaves [n], [dia] and [pitch] as they
    were. *)
Theorem set_speed_frame self speeds :
  n (after speeds self) = n self /\
  dia (after speeds self) = dia self /\
  pitch (after speeds self) = pitch self.
Proof.
  unfold after, set_speed, bind, attr, call, raise,
    assign_speed, assign_thrust.
  destruct (negb (len speeds =? n self)); simpl; auto.
  destruct (tensor_mul _ _); simpl; auto.
  destruct (tensor_div _ _); simpl; auto.
  destruct (tensor_mul _ _); simpl; auto.
  destruct (tensor_mul _ _); simpl; auto.
Qed.

(** C8.  Two calls of [set_speed] in a row with the same vector of
    [count] speeds both return normally, and the second leaves the
    object, its [thrust] in particular, as the first left it. *)
Theorem set_speed_idempotent (count : Z) (diameters pitches : list F)
        self speeds :
  reachable count diameters pitches self ->
  len speeds = count ->
  outcome speeds self = Ok tt /\
  outcome speeds (after speeds self) = Ok tt /\
  thrust (after speeds (after speeds self)) = thrust (after speeds self) /\
  after speeds (after speeds self) = after speeds self.
Proof.
  intros R Hl.
  assert (R' : reachable count diameters pitches (after speeds self))
    by now constructor.
  unfold outcome.
  assert (E : after speeds (after speeds self) = after speeds self).
  { unfold after at 1 3.
    now rewrite (set_speed_reachable _ _ _ _ _ R Hl),
                (set_speed_reachable _ _ _ _ _ R' Hl). }
  rewrite (set_speed_reachable _ _ _ _ _ R' Hl).
  rewrite (set_speed_reachable _ _ _ _ _ R Hl).
  rewrite E; auto.
Qed.

End SetSpeed.

(** * Exact real arithmetic *)

Section Reals.

Local Open Scope R_scope.

Implicit Types (s d p : R).

Lemma literal_39_37 : of_literal lit_39_37 = 39.37.
Proof. cbv [of_literal Scalar_R R_of_literal lit_39_37 exp10 mant]; simpl; lra. Qed.

Lemma literal_4_392e_8 : of_literal lit_4_392e_8 = 4.392e-8.
Proof. cbv [of_literal Scalar_R R_of_literal lit_4_392e_8 exp10 mant]; simpl; lra. Qed.

Lemma literal_4_23e_4 : of_literal lit_4_23e_4 = 4.23e-4.
Proof. cbv [of_literal Scalar_R R_of_literal lit_4_23e_4 exp10 mant]; simpl; lra. Qed.

Lemma literal_3_5 : of_literal lit_3_5 = 3.5.
Proof. cbv [of_literal Scalar_R R_of_literal lit_3_5 exp10 mant]; simpl; lra. Qed.

(** The source's expression, read in the reals. *)
Lemma thrust_two_step_real s d p :
  thrust_two_step s d p =
    (4.392e-8 * s * Rpower d 3.5 / sqrt p) * (4.23e-4 * s * p).
Proof.
  unfold thrust_two_step.
  rewrite literal_4_392e_8, literal_4_23e_4, literal_3_5.
  reflexivity.
Qed.

Lemma sqrt_cancel p : 0 < p -> p / sqrt p = sqrt p.
Proof.
  intros Hp.
  assert (Hs : 0 < sqrt p) by now apply sqrt_lt_R0.
  rewrite <- (sqrt_sqrt p) at 1 by lra.
  field; lra.
Qed.

(** Thrust is a coefficient, fixed by the geometry, times the square of
    the speed. *)
Lemma thrust_quadratic s d p :
  0 < p -> thrust_two_step s d p = thrust_coefficient d p * s².
Proof.
  intros Hp.
  assert (Hs : 0 < sqrt p) by now apply sqrt_lt_R0.
  rewrite thrust_two_step_real; unfold thrust_coefficient, Rsqr.
  rewrite <- (sqrt_cancel p Hp) at 2.
  field; lra.
Qed.


(** C2.  For every speed [s] and positive [d], [p], the two-step value
    [(4.392e-8 * s * d^3.5 / sqrt p) * (4.23e-4 * s * p)] that the code
    computes equals the closed form
    [4.392e-8 * 4.23e-4 * s^2 * d^3.5 * p^0.5], in exact real
    arithmetic. *)
Theorem thrust_closed_form_equiv s d p :
  0 < d -> 0 < p ->
  thrust_two_step s d p = thrust_closed_form s d p.
Proof.
  intros _ Hp.
  rewrite thrust_quadratic by assumption.
  unfold thrust_coefficient, thrust_closed_form, Rsqr.
  replace 0.5 with (/ 2) by lra.
  rewrite Rpower_sqrt by assumption.
  ring.
Qed.


End Reals.

(** * What rounding does to monotonicity *)


(** The binary32 values of the four literals of the source, as sign,
    24-bit mantissa and exponent of two. *)
Lemma binary32_literals (powf : spec_float -> spec_float -> spec_float) :
  map (of_literal (Scalar:=Scalar_binary32 powf))
      [lit_39_37; lit_4_392e_8; lit_4_23e_4; lit_3_5] =
  [S754_finite false 10320609 (-18); S754_finite false 12362381 (-48);
   S754_finite false 14534169 (-35); S754_finite false 14680064 (-22)].
Proof. vm_compute; reflexivity. Qed.




(** * What the constructor does not validate *)

(** C10.  [__init__] fails exactly when one of the two lengths differs
    from [count], and then with [ValueError]: neither the values nor
    [count] itself are examined otherwise.  With [count = 0] and empty
    arguments it returns an object whose four vectors are empty; zero and
    negative diameters and pitches are accepted. *)
Theorem init_validates_lengths_only :
  (forall (F : Type) (SF : Scalar F) (count : Z) (diameters pitches : list F),
      is_ok (__init__ count diameters pitches) =
        (len diameters =? count) && (len pitches =? count) /\
      forall e, __init__ count diameters pitches = Err e ->
                (len diameters <> count \/ len pitches <> count) /\
                exists msg, e = ValueError msg) /\
  (forall (F : Type) (SF : Scalar F),
      @__init__ F SF 0 [] [] = Ok (mkPropellers 0 [] [] [] [])) /\
  is_ok (__init__ 2 [0; -1]%R [-3; 0]%R) = true /\
  is_ok (__init__ (-1) (@nil R) (@nil R)) = false.
Proof.
  split; [| split; [| split]]; try reflexivity.
  intros F SF count diameters pitches.
  destruct (Z.eq_dec (len diameters) count) as [Hd|Hd];
    [destruct (Z.eq_dec (len pitches) count) as [Hp|Hp] |].
  - rewrite init_ok by assumption.
    rewrite Hd, Hp, Z.eqb_refl; split; [reflexivity | discriminate].
  - rewrite init_bad_pitches by assumption.
    rewrite Hd, Z.eqb_refl, (proj2 (Z.eqb_neq _ _) Hp).
    split; [reflexivity |].
    intros e He; injection He as <-; split; [now right | eauto].
  - rewrite init_bad_diameters by assumption.
    rewrite (proj2 (Z.eqb_neq _ _) Hd).
    split; [reflexivity |].
    intros e He; injection He as <-; split; [now left | eauto].
Qed.

(** * The theorems at the example object *)

Lemma quad_init : __init__ 4 quad_diameters quad_pitches = Ok quad.
Proof. reflexivity. Qed.

Lemma to_inches_pos (x : R) : (0 < x -> 0 < to_inches x)%R.
Proof.
  intros Hx; unfold to_inches; rewrite literal_39_37; simpl.
  apply Rmult_lt_0_compat; lra.
Qed.

Lemma init_succeeds_witness :
  exists self : Propellers,
    __init__ 4 quad_diameters quad_pitches = Ok self /\
    speed self = [0; 0; 0; 0]%R /\ thrust self = [0; 0; 0; 0]%R.
Proof.
  destruct (init_succeeds 4 quad_diameters quad_pitches)
    as (self & Hinit & _ & _ & _ & Hs & Ht & _);
    [lia | reflexivity | reflexivity |].
  exists self; auto.
Defined.

Lemma init_length_errors_witness :
  __init__ 2 [0.3]%R [0.2; 0.2]%R = Err (ValueError (msg_diameters 1 2)) /\
  __init__ 2 [0.3; 0.3]%R [0.2]%R = Err (ValueError (msg_pitchs 1 2)).
Proof.
  split.
  - apply (proj1 (init_length_errors 2 [0.3]%R [0.2; 0.2]%R)).
    unfold len; simpl; lia.
  - apply (proj2 (init_length_errors 2 [0.3; 0.3]%R [0.2]%R)).
    + reflexivity.
    + unfold len; simpl; lia.
Defined.

Lemma set_speed_sets_thrust_witness :
  outcome quad_speeds quad = Ok tt /\
  speed (after quad_speeds quad) = quad_speeds /\
  nth_error (thrust (after quad_speeds quad)) 0 =
    Some (thrust_two_step 3000 (to_inches 3) (to_inches 2))%R.
Proof.
  destruct (set_speed_sets_thrust 4 quad_diameters quad_pitches quad quad_speeds)
    as (Hout & Hspeed & _ & Hth).
  - apply reach_init; reflexivity.
  - reflexivity.
  - split; [exact Hout | split; [exact Hspeed |]].
    apply (Hth 0%nat 3000 3 2)%R; reflexivity.
Defined.

Lemma thrust_closed_form_equiv_witness :
  thrust_two_step 3000%R 118.11%R 78.74%R =
  thrust_closed_form 3000%R 118.11%R 78.74%R.
Proof. apply thrust_closed_form_equiv; lra. Defined.

Lemma set_speed_wrong_length_witness :
  outcome [3; 2; 1]%R quad = Err (ValueError (msg_speed 3 4)) /\
  after [3; 2; 1]%R quad = quad.
Proof.
  apply (set_speed_wrong_length 4 quad_diameters quad_pitches).
  - apply reach_init; reflexivity.
  - unfold len; simpl; lia.
Defined.

Lemma lengths_invariant_witness :
  len (thrust (after [1; 2]%R (after quad_speeds quad))) = 4.
Proof.
  destruct (lengths_invariant 4 quad_diameters quad_pitches
              (after [1; 2]%R (after quad_speeds quad)))
    as (Hn & _ & _ & _ & Ht).
  - do 2 apply reach_set_speed; apply reach_init; reflexivity.
  - now rewrite Ht, Hn.
Defined.

Lemma set_speed_idempotent_witness :
  after quad_speeds (after quad_speeds quad) = after quad_speeds quad.
Proof.
  apply (set_speed_idempotent 4 quad_diameters quad_pitches).
  - apply reach_init; reflexivity.
  - reflexivity.
Defined.


(** * The life of an object *)

Section Lifetime.

Context {F : Type} {SF : Scalar F}.

Implicit Types (self : @Propellers F) (speeds : @tensor F).

Lemma init_inversion (count : Z) (diameters pitches : list F) self :
  __init__ count diameters pitches = Ok self ->
  self = mkPropellers count (map to_inches diameters) (map to_inches pitches)
           (repeat fzero (Z.to_nat count)) (repeat fzero (Z.to_nat count)).
Proof.
  intros H.
  destruct (Z.eq_dec (len diameters) count) as [Hd|Hd];
    [| rewrite init_bad_diameters in H by assumption; discriminate].
  destruct (Z.eq_dec (len pitches) count) as [Hp|Hp];
    [| rewrite init_bad_pitches in H by assumption; discriminate].
  rewrite init_ok in H by assumption.
  now injection H.
Qed.

(** X1.  The last accepted call wins: after any call [a], accepted or
    rejected, an accepted call [b] leaves the object exactly as [b] alone
    would have left it. *)
Theorem set_speed_last_wins (count : Z) (diameters pitches : list F)
        self (a b : @tensor F) :
  reachable count diameters pitches self ->
  len b = count ->
  after b (after a self) = after b self.
Proof.
  intros R Hl.
  assert (R' : reachable count diameters pitches (after a self))
    by now constructor.
  unfold after at 1 3.
  now rewrite (set_speed_reachable _ _ _ _ _ R Hl),
              (set_speed_reachable _ _ _ _ _ R' Hl).
Qed.

(** X2.  [thrust] is never stale.  In every state of an object, either
    no call has been accepted yet and [speed] and [thrust] are still the
    zeros of the constructor, or [thrust] holds at every index the value
    of the formula at the current [speed] and the stored geometry;
    rejected calls in between do not break this. *)
Theorem thrust_never_stale (count : Z) (diameters pitches : list F) self :
  reachable count diameters pitches self ->
  (speed self = repeat fzero (Z.to_nat count) /\
   thrust self = repeat fzero (Z.to_nat count)) \/
  (forall (i : nat) (s d p : F),
      nth_error (speed self) i = Some s ->
      nth_error (dia self) i = Some d ->
      nth_error (pitch self) i = Some p ->
      nth_error (thrust self) i = Some (thrust_two_step s d p)).
Proof.
  induction 1 as [self H | self speeds R IH].
  - left. rewrite (init_inversion _ _ _ _ H); simpl; auto.
  - pose proof (reachable_consistent _ _ _ _ R) as C.
    destruct (Z.eq_dec (len speeds) count) as [E|E].
    + right; intros i s d p Hs Hd Hp.
      rewrite (thrust_after _ _ _ _ _ R E).
      revert Hs Hd Hp; unfold after.
      rewrite (set_speed_reachable _ _ _ _ _ R E); simpl.
      rewrite (cons_dia _ _ _ _ C), (cons_pitch _ _ _ _ C).
      now apply nth_error_thrust_vec.
    + unfold after; rewrite set_speed_rejects
        by (rewrite (cons_n _ _ _ _ C); exact E).
      exact IH.
Qed.

(** X3.  The geometry is fixed for life: in every state of an object,
    after any calls of [set_speed], [n] is the constructor's count and
    [dia], [pitch] are the constructor's lists times 39.37. *)
Theorem geometry_fixed_for_life (count : Z) (diameters pitches : list F)
        self :
  reachable count diameters pitches self ->
  n self = count /\
  dia self = map (fun x => fmul x (of_literal lit_39_37)) diameters /\
  pitch self = map (fun x => fmul x (of_literal lit_39_37)) pitches.
Proof.
  intros R.
  pose proof (reachable_consistent _ _ _ _ R) as [Hn _ _ Hd Hp _ _].
  auto.
Qed.

(** X4.  A negative count is always refused, whatever the lists are, and
    with the message about the diameters: no list has that length, so
    the first check fails and [torch.zeros] is never reached. *)
Theorem init_negative_count (count : Z) (diameters pitches : list F) :
  count < 0 ->
  __init__ count diameters pitches =
    Err (ValueError (msg_diameters (len diameters) count)).
Proof.
  intros Hneg; apply init_bad_diameters.
  unfold len; lia.
Qed.

End Lifetime.

(** * Symmetry of the thrust in the sign of the speed *)

Section RealThrust.

Local Open Scope R_scope.

Implicit Types (self : @Propellers R) (speeds : @tensor R) (s d p : R).

(** The thrust an accepted call leaves at one index, in terms of the
    stored geometry. *)
Lemma thrust_at_stored (count : Z) (diameters pitches : list R) self speeds
      (i : nat) s d p :
  reachable count diameters pitches self ->
  len speeds = count ->
  nth_error speeds i = Some s ->
  nth_error (dia self) i = Some d ->
  nth_error (pitch self) i = Some p ->
  nth_error (thrust (after speeds self)) i = Some (thrust_two_step s d p).
Proof.
  intros R Hl Hs Hd Hp.
  rewrite (thrust_after _ _ _ _ _ R Hl).
  now apply nth_error_thrust_vec.
Qed.

(** X6.  Reversing a propeller does not change its thrust: where two
    accepted speed vectors hold opposite speeds at an index, they leave
    the same thrust there (positive stored geometry). *)
Theorem thrust_even_in_speed (count : Z) (diameters pitches : list R) self
        (speeds1 speeds2 : @tensor R) (i : nat) s d p :
  reachable count diameters pitches self ->
  len speeds1 = count ->
  len speeds2 = count ->
  nth_error speeds1 i = Some s ->
  nth_error speeds2 i = Some (- s) ->
  nth_error (dia self) i = Some d ->
  nth_error (pitch self) i = Some p ->
  0 < d -> 0 < p ->
  nth_error (thrust (after speeds2 self)) i =
  nth_error (thrust (after speeds1 self)) i.
Proof.
  intros R L1 L2 H1 H2 Hd Hp _ Hppos.
  rewrite (thrust_at_stored _ _ _ _ _ _ _ _ _ R L1 H1 Hd Hp).
  rewrite (thrust_at_stored _ _ _ _ _ _ _ _ _ R L2 H2 Hd Hp).
  f_equal.
  rewrite !thrust_quadratic by assumption.
  now rewrite <- Rsqr_neg.
Qed.

End RealThrust.

(** * The further theorems at the example objects *)

Lemma set_speed_last_wins_witness :
  after quad_speeds (after quad_slow quad) = after quad_speeds quad.
Proof.
  apply (set_speed_last_wins 4 quad_diameters quad_pitches).
  - apply reach_init; reflexivity.
  - reflexivity.
Defined.

Lemma thrust_never_stale_witness :
  (speed (after [3; 2; 1]%R (after quad_speeds quad)) = [0; 0; 0; 0]%R /\
   thrust (after [3; 2; 1]%R (after quad_speeds quad)) = [0; 0; 0; 0]%R) \/
  (forall (i : nat) (s d p : R),
      nth_error (speed (after [3; 2; 1]%R (after quad_speeds quad))) i
        = Some s ->
      nth_error (dia (after [3; 2; 1]%R (after quad_speeds quad))) i
        = Some d ->
      nth_error (pitch (after [3; 2; 1]%R (after quad_speeds quad))) i
        = Some p ->
      nth_error (thrust (after [3; 2; 1]%R (after quad_speeds quad))) i
        = Some (thrust_two_step s d p)).
Proof.
  assert (R : reachable 4 quad_diameters quad_pitches
                (after [3; 2; 1]%R (after quad_speeds quad)))
    by (do 2 apply reach_set_speed; apply reach_init; reflexivity).
  exact (thrust_never_stale 4 quad_diameters quad_pitches _ R).
Defined.

Lemma geometry_fixed_for_life_witness :
  dia (after [3; 2; 1]%R (after quad_speeds quad)) =
  map to_inches quad_diameters.
Proof.
  apply (geometry_fixed_for_life 4 quad_diameters quad_pitches).
  do 2 apply reach_set_speed; apply reach_init; reflexivity.
Defined.

Lemma init_negative_count_witness :
  __init__ (-1) (@nil R) (@nil R) =
  Err (ValueError (msg_diameters 0 (-1))).
Proof. apply (init_negative_count (-1) (@nil R) (@nil R)); lia. Defined.

Lemma thrust_even_in_speed_witness :
  nth_error (thrust (after [- 3000; 3000; 3000; 3000]%R quad)) 0 =
  nth_error (thrust (after quad_speeds quad)) 0.
Proof.
  apply (thrust_even_in_speed 4 quad_diameters quad_pitches quad
           quad_speeds [- 3000; 3000; 3000; 3000]%R 0 3000%R
           (to_inches 3%R) (to_inches 2%R)).
  - apply reach_init; reflexivity.
  - reflexivity.
  - reflexivity.
  - reflexivity.
  - reflexivity.
  - reflexivity.
  - reflexivity.
  - apply to_inches_pos; lra.
  - apply to_inches_pos; lra.
Defined.
